(** * The login flow of [src/app/page.tsx]

    A shallow embedding of the [Home] component: its ten [useState] cells,
    the three asynchronous submit handlers, [handleBack], and the part of
    the JSX that decides which control can fire which handler.

    An [async] handler runs in two pieces.  Everything before the first
    [await] runs when the form is submitted ([*_start]); the rest runs when
    the [fetch(...)]/[response.json()] chain settles ([*_resume]).  The
    requests that have been sent and have not settled yet are kept beside
    the component state in a [World], so that one-request-at-a-time is a
    property to be proved and not one built into the model.  Every event
    is handled against the cells as the latest render left them. *)

From stdpp Require Import base option list.
From Stdlib Require Import Ascii String Bool Lia.

Local Open Scope string_scope.

(** ** JavaScript values the component looks at *)

Module JS.

(** Strings are sequences of code units; the model keeps the code units
    0..255.  [isWhiteSpace] is the part of the WhiteSpace and
    LineTerminator classes of [String.prototype.trim] in that range:
    TAB, LF, VT, FF, CR, SP and NBSP. *)
Definition isWhiteSpace (c : ascii) : bool :=
  let n := nat_of_ascii c in
  (Nat.leb 9 n && Nat.leb n 13) || Nat.eqb n 32 || Nat.eqb n 160.

Fixpoint trimStart (s : string) : string :=
  match s with
  | EmptyString => EmptyString
  | String c r => if isWhiteSpace c then trimStart r else s
  end.

Fixpoint trimEnd (s : string) : string :=
  match s with
  | EmptyString => EmptyString
  | String c r =>
      match trimEnd r with
      | EmptyString => if isWhiteSpace c then EmptyString else String c EmptyString
      | r' => String c r'
      end
  end.

(** [s.trim()] *)
Definition trim (s : string) : string := trimEnd (trimStart s).

(** Truthiness of a string: every string but the empty one. *)
Definition truthy (s : string) : bool :=
  match s with
  | EmptyString => false
  | String _ _ => true
  end.

(** Truthiness of a property that is a string when it is there
    ([None] stands for [undefined] and for [null]). *)
Definition truthy_opt (v : option string) : bool :=
  match v with
  | Some s => truthy s
  | None => false
  end.

(** [v || d] for such a property [v] and a string literal [d]. *)
Definition or_else (v : option string) (d : string) : string :=
  match v with
  | Some s => if truthy s then s else d
  | None => d
  end.

(** [v === lit] *)
Definition strict_eq (v : option string) (lit : string) : bool :=
  match v with
  | Some s => String.eqb s lit
  | None => false
  end.

End JS.

(** ** Data *)

(** [type LoginStep = "email" | "password" | "2fa" | "success"] *)
Inductive LoginStep : Type :=
| StepEmail
| StepPassword
| Step2FA
| StepSuccess.

#[global] Instance LoginStep_eq_dec : EqDecision LoginStep.
Proof. solve_decision. Defined.

(** [challengeMetadata] is [any]; the component reads three keys of it. *)
Record Metadata : Type := mkMetadata {
  officeVerificationStep : option string;
  maskedEmail : option string;
  hasCodeLink : bool
}.

(** The object [data] that [await response.json()] yields.  [data_success]
    is the truthiness of [data.success]; a key that is missing is [None]. *)
Record Data : Type := mkData {
  data_success : bool;
  data_sessionId : option string;
  data_status : option string;
  data_challengeType : option string;
  data_challengeMetadata : option Metadata;
  data_message : option string
}.

(** How the awaited part of a handler ends: with the parsed body, or with
    an exception ([fetch] rejects, [response.json()] rejects, or the body
    is [null] and [data.success] throws).  All of them happen before the
    first setter of the [try] block. *)
Inductive Settled : Type :=
| Fulfilled (data : Data)
| Thrown.

(** The ten [useState] cells of [Home] (lines 13-22). *)
Record State : Type := mkState {
  step : LoginStep;
  email : string;
  password : string;
  twoFACode : string;
  showPassword : bool;
  sessionId : option string;
  isLoading : bool;
  error : option string;
  challengeType : option string;
  challengeMetadata : option Metadata
}.

Definition initial : State :=
  {| step := StepEmail; email := ""; password := ""; twoFACode := "";
     showPassword := false; sessionId := None; isLoading := false;
     error := None; challengeType := None; challengeMetadata := None |}.

(** The setters.  Each call in the source passes a value, never an updater
    function, so a setter overwrites one cell and keeps the others. *)
Definition setStep (v : LoginStep) (s : State) : State :=
  mkState v (email s) (password s) (twoFACode s) (showPassword s)
          (sessionId s) (isLoading s) (error s) (challengeType s) (challengeMetadata s).

Definition setEmail (v : string) (s : State) : State :=
  mkState (step s) v (password s) (twoFACode s) (showPassword s)
          (sessionId s) (isLoading s) (error s) (challengeType s) (challengeMetadata s).

Definition setPassword (v : string) (s : State) : State :=
  mkState (step s) (email s) v (twoFACode s) (showPassword s)
          (sessionId s) (isLoading s) (error s) (challengeType s) (challengeMetadata s).

Definition setTwoFACode (v : string) (s : State) : State :=
  mkState (step s) (email s) (password s) v (showPassword s)
          (sessionId s) (isLoading s) (error s) (challengeType s) (challengeMetadata s).

Definition setShowPassword (v : bool) (s : State) : State :=
  mkState (step s) (email s) (password s) (twoFACode s) v
          (sessionId s) (isLoading s) (error s) (challengeType s) (challengeMetadata s).

Definition setSessionId (v : option string) (s : State) : State :=
  mkState (step s) (email s) (password s) (twoFACode s) (showPassword s)
          v (isLoading s) (error s) (challengeType s) (challengeMetadata s).

Definition setIsLoading (v : bool) (s : State) : State :=
  mkState (step s) (email s) (password s) (twoFACode s) (showPassword s)
          (sessionId s) v (error s) (challengeType s) (challengeMetadata s).

Definition setError (v : option string) (s : State) : State :=
  mkState (step s) (email s) (password s) (twoFACode s) (showPassword s)
          (sessionId s) (isLoading s) v (challengeType s) (challengeMetadata s).

Definition setChallengeType (v : option string) (s : State) : State :=
  mkState (step s) (email s) (password s) (twoFACode s) (showPassword s)
          (sessionId s) (isLoading s) (error s) v (challengeMetadata s).

Definition setChallengeMetadata (v : option Metadata) (s : State) : State :=
  mkState (step s) (email s) (password s) (twoFACode s) (showPassword s)
          (sessionId s) (isLoading s) (error s) (challengeType s) v.

(** The body of a request, as [JSON.stringify] receives it. *)
Inductive Request : Type :=
| PostInitiate (body_email : string)
| PostPassword (body_sessionId : option string) (body_password : string)
| Post2FA (body_sessionId : option string) (body_code : string).

(** The message of the three [catch] blocks. *)
Definition retry_message : string := "An error occurred. Please try again.".

(** ** The handlers *)

(** [handleEmailSubmit], lines 24-39: the guard, the two setters and the
    request.  [None] is the early [return]. *)
Definition handleEmailSubmit_start (s : State) : option (State * Request) :=
  if negb (JS.truthy (JS.trim (email s))) || isLoading s then None
  else Some (setError None (setIsLoading true s), PostInitiate (email s)).

(** [handleEmailSubmit], lines 41-59. *)
Definition handleEmailSubmit_resume (o : Settled) (s : State) : State :=
  setIsLoading false
    match o with
    | Fulfilled data =>
        if data_success data then
          let s1 := setSessionId (data_sessionId data) s in
          if JS.strict_eq (data_status data) "requires_password"
          then setStep StepPassword s1
          else setStep StepPassword s1
        else setError (Some (JS.or_else (data_message data) "Failed to initiate login")) s
    | Thrown => setError (Some retry_message) s
    end.

(** [handlePasswordSubmit], lines 62-77. *)
Definition handlePasswordSubmit_start (s : State) : option (State * Request) :=
  if negb (JS.truthy (JS.trim (password s))) || isLoading s
     || negb (JS.truthy_opt (sessionId s))
  then None
  else Some (setError None (setIsLoading true s),
             PostPassword (sessionId s) (password s)).

(** The three lines that store a challenge (83-85, 94-96). *)
Definition enter2FA (data : Data) (s : State) : State :=
  setStep Step2FA
    (setChallengeMetadata (data_challengeMetadata data)
       (setChallengeType (data_challengeType data) s)).

(** [handlePasswordSubmit], lines 79-107. *)
Definition handlePasswordSubmit_resume (o : Settled) (s : State) : State :=
  setIsLoading false
    match o with
    | Fulfilled data =>
        if data_success data then
          if JS.truthy_opt (data_challengeType data) then enter2FA data s
          else if JS.strict_eq (data_status data) "authenticated"
                  || JS.strict_eq (data_status data) "completed"
          then setStep StepSuccess s
          else setStep StepSuccess s
        else
          if JS.truthy_opt (data_challengeType data) then enter2FA data s
          else
            setPassword ""
              (setError (Some (JS.or_else (data_message data)
                                 "Invalid password or login failed")) s)
    | Thrown => setError (Some retry_message) s
    end.

(** [const isPush = challengeType === "APP" || challengeType === "PUSH"] *)
Definition isPush (s : State) : bool :=
  JS.strict_eq (challengeType s) "APP" || JS.strict_eq (challengeType s) "PUSH".

(** [handle2FASubmit], lines 110-129. *)
Definition handle2FASubmit_start (s : State) : option (State * Request) :=
  if negb (isPush s) && negb (JS.truthy (JS.trim (twoFACode s))) then None
  else if isLoading s || negb (JS.truthy_opt (sessionId s)) then None
  else Some (setError None (setIsLoading true s),
             Post2FA (sessionId s) (twoFACode s)).

(** [handle2FASubmit], lines 131-151. *)
Definition handle2FASubmit_resume (o : Settled) (s : State) : State :=
  setIsLoading false
    match o with
    | Fulfilled data =>
        if data_success data then setStep StepSuccess s
        else
          if JS.truthy_opt (data_challengeType data) then
            let s1 := setTwoFACode ""
                        (setChallengeMetadata (data_challengeMetadata data)
                           (setChallengeType (data_challengeType data) s)) in
            if JS.truthy_opt (data_message data)
            then setError (data_message data) s1
            else s1
          else setError (Some (JS.or_else (data_message data) "Invalid code")) s
    | Thrown => setError (Some retry_message) s
    end.

(** [handleBack], lines 154-163. *)
Definition handleBack (s : State) : State :=
  setError None
    match step s with
    | StepPassword => setPassword "" (setStep StepEmail s)
    | Step2FA => setTwoFACode "" (setStep StepPassword s)
    | _ => s
    end.

(** ** The rendered controls *)

(** What a user or the network can do to the mounted component. *)
Inductive Event : Type :=
| ChangeEmail (v : string)
| ChangePassword (v : string)
| ChangeTwoFACode (v : string)
| ToggleShowPassword
| SubmitEmail
| SubmitPassword
| Submit2FA
| ClickBack
| ClickCodeLink
| Settle (k : nat) (o : Settled).

(** The component state and the requests that were sent and have not
    settled. *)
Record World : Type := mkWorld {
  ui : State;
  outstanding : list Request
}.

Definition mount : World := mkWorld initial [].

Definition step_is (s : State) (v : LoginStep) : bool := bool_decide (step s = v).

(** Which control exists and reacts, read off the JSX:
    - the e-mail form and its input are rendered when [step === "email"],
      the input with [disabled={isLoading}] (lines 280-314);
    - the password form, its input and the show-password button when
      [step === "password"] (lines 317-371);
    - the second-factor form when [step === "2fa"], its input only when
      [!isPush], with [disabled={isLoading}] (lines 209-240), the
      "I have a code" link when [challengeMetadata?.hasCodeLink];
    - the back arrow when [step === "password" || step === "2fa"], with
      [disabled={isLoading}] (lines 250-262).
    A form can be submitted whenever it is rendered: the handlers test
    [isLoading] themselves. *)
Definition rendered (s : State) (e : Event) : bool :=
  match e with
  | ChangeEmail _ => step_is s StepEmail && negb (isLoading s)
  | SubmitEmail => step_is s StepEmail
  | ChangePassword _ => step_is s StepPassword && negb (isLoading s)
  | ToggleShowPassword => step_is s StepPassword
  | SubmitPassword => step_is s StepPassword
  | ChangeTwoFACode _ => step_is s Step2FA && negb (isPush s) && negb (isLoading s)
  | Submit2FA => step_is s Step2FA
  | ClickCodeLink =>
      step_is s Step2FA
      && match challengeMetadata s with Some m => hasCodeLink m | None => false end
  | ClickBack => (step_is s StepPassword || step_is s Step2FA) && negb (isLoading s)
  | Settle _ _ => true
  end.

(** The continuation that waits for a request. *)
Definition resume (rq : Request) (o : Settled) (s : State) : State :=
  match rq with
  | PostInitiate _ => handleEmailSubmit_resume o s
  | PostPassword _ _ => handlePasswordSubmit_resume o s
  | Post2FA _ _ => handle2FASubmit_resume o s
  end.

Definition send (w : World) (r : option (State * Request)) : World :=
  match r with
  | None => w
  | Some (s, rq) => mkWorld s (outstanding w ++ [rq])
  end.

(** One event.  An event whose control is not there changes nothing. *)
Definition fire (w : World) (e : Event) : World :=
  if negb (rendered (ui w) e) then w
  else
    match e with
    | ChangeEmail v => mkWorld (setEmail v (ui w)) (outstanding w)
    | ChangePassword v => mkWorld (setPassword v (ui w)) (outstanding w)
    | ChangeTwoFACode v => mkWorld (setTwoFACode v (ui w)) (outstanding w)
    | ToggleShowPassword =>
        mkWorld (setShowPassword (negb (showPassword (ui w))) (ui w)) (outstanding w)
    | SubmitEmail => send w (handleEmailSubmit_start (ui w))
    | SubmitPassword => send w (handlePasswordSubmit_start (ui w))
    | Submit2FA => send w (handle2FASubmit_start (ui w))
    | ClickBack => mkWorld (handleBack (ui w)) (outstanding w)
    | ClickCodeLink => w
    | Settle k o =>
        match outstanding w !! k with
        | Some rq => mkWorld (resume rq o (ui w)) (delete k (outstanding w))
        | None => w
        end
    end.

Definition run (w : World) (es : list Event) : World := fold_left fire es w.

(** The worlds the mounted component can be in. *)
Inductive reachable : World -> Prop :=
| reachable_mount : reachable mount
| reachable_fire w e : reachable w -> reachable (fire w e).

(** The contract of the initiate call: [sessionId] is there when [success]
    is true.  The two other calls have no such clause. *)
Definition honours_contract (w : World) (e : Event) : bool :=
  match e with
  | Settle k (Fulfilled data) =>
      match outstanding w !! k with
      | Some (PostInitiate _) =>
          implb (data_success data) (bool_decide (is_Some (data_sessionId data)))
      | _ => true
      end
  | _ => true
  end.

(** The worlds reached when the server keeps the contract. *)
Inductive conforming : World -> Prop :=
| conforming_mount : conforming mount
| conforming_fire w e :
    conforming w -> honours_contract w e = true -> conforming (fire w e).

(** ** What holds in every reachable world *)

(** The step at which the handler that sent a request was rendered. *)
Definition sent_at (rq : Request) : LoginStep :=
  match rq with
  | PostInitiate _ => StepEmail
  | PostPassword _ _ => StepPassword
  | Post2FA _ _ => Step2FA
  end.

Record coherent (w : World) : Prop := mkCoherent {
  coh_loading :
    (isLoading (ui w) = false /\ outstanding w = [])
    \/ (isLoading (ui w) = true
        /\ exists rq, outstanding w = [rq] /\ step (ui w) = sent_at rq);
  coh_code :
    step (ui w) = StepEmail \/ step (ui w) = StepPassword ->
    twoFACode (ui w) = "";
  coh_challenge :
    step (ui w) = Step2FA -> JS.truthy_opt (challengeType (ui w)) = true
}.

(** The session cell is filled at every step after the first. *)
Definition has_session (w : World) : Prop :=
  step (ui w) <> StepEmail -> is_Some (sessionId (ui w)).

(** Does the server keep the contract along a run? *)
Fixpoint keeps_contract (w : World) (es : list Event) : bool :=
  match es with
  | [] => true
  | e :: es' => honours_contract w e && keeps_contract (fire w e) es'
  end.

(** ** The classification of a verify-secret response, in the spec's words

    Section 4.1, submitSecret, "checked in this order":
    1. the response carries a challenge descriptor: store it, clear
       [secondFactorInput], go to SecondFactor;
    2. else the response reports success: go to Success;
    3. else: [lastError] from the server message (fallback "Invalid
       password or login failed"), clear [secret], stay at Secret.
    A challenge type or a message that is the empty string counts as not
    there. *)
Definition spec_carries_challenge (data : Data) : bool :=
  match data_challengeType data with
  | Some t => negb (String.eqb t "")
  | None => false
  end.

Definition spec_server_message (data : Data) (fallback : string) : string :=
  match data_message data with
  | Some m => if String.eqb m "" then fallback else m
  | None => fallback
  end.

Definition spec_classify_secret (data : Data) (s : State) : State :=
  if spec_carries_challenge data then
    mkState Step2FA (email s) (password s) "" (showPassword s)
            (sessionId s) (isLoading s) (error s)
            (data_challengeType data) (data_challengeMetadata data)
  else if data_success data then
    mkState StepSuccess (email s) (password s) (twoFACode s) (showPassword s)
            (sessionId s) (isLoading s) (error s)
            (challengeType s) (challengeMetadata s)
  else
    mkState (step s) (email s) "" (twoFACode s) (showPassword s)
            (sessionId s) (isLoading s)
            (Some (spec_server_message data "Invalid password or login failed"))
            (challengeType s) (challengeMetadata s).

(** ** Sample responses and runs *)

Module Sample.

(** [{success: true, sessionId: "s1", status: "requires_password"}] *)
Definition initiated : Data :=
  mkData true (Some "s1") (Some "requires_password") None None None.

(** [{success: false, challengeType: "SMS"}] *)
Definition sms_challenge : Data :=
  mkData false None None (Some "SMS") None None.

(** [{success: true, challengeType: "EMAIL"}] *)
Definition verified_with_challenge : Data :=
  mkData true None None (Some "EMAIL") None None.

(** [{success: false}] *)
Definition rejected : Data :=
  mkData false None None None None None.

Definition to_password : list Event :=
  [ChangeEmail "a@x.com"; SubmitEmail; Settle 0 (Fulfilled initiated)].

Definition password_sent : list Event :=
  to_password ++ [ChangePassword "hunter2"; SubmitPassword].

Definition to_2fa : list Event :=
  password_sent ++ [Settle 0 (Fulfilled sms_challenge)].

Definition code_sent : list Event :=
  to_2fa ++ [ChangeTwoFACode "000000"; Submit2FA].

Definition back_to_password : list Event := to_2fa ++ [ClickBack].

(** The second-factor step with a code typed in, before and after the
    form is submitted. *)
Definition typed_code : State :=
  mkState Step2FA "a@x.com" "hunter2" "000000" false (Some "s1") false
          None (Some "SMS") None.

Definition code_loading : State :=
  mkState Step2FA "a@x.com" "hunter2" "000000" false (Some "s1") true
          None (Some "SMS") None.

Definition back_to_email : list Event := to_password ++ [ClickBack].

(** [{success: true, status: "authenticated"}] *)
Definition authenticated : Data :=
  mkData true None (Some "authenticated") None None None.

Definition to_success : list Event :=
  code_sent ++ [Settle 0 (Fulfilled authenticated)].

(** [{success: false, message: "Unknown account"}] *)
Definition unknown_account : Data :=
  mkData false None None None None (Some "Unknown account").

Definition initiate_refused : list Event :=
  [ChangeEmail "a@x.com"; SubmitEmail; Settle 0 (Fulfilled unknown_account)].

(** [{success: true, status: "requires_password"}]: no [sessionId]. *)
Definition initiated_without_session : Data :=
  mkData true None (Some "requires_password") None None None.

Definition to_password_without_session : list Event :=
  [ChangeEmail "a@x.com"; SubmitEmail;
   Settle 0 (Fulfilled initiated_without_session)].

End Sample.


(** ** What is on the screen

    The JSX that [Home] returns, reduced to the parts that depend on the
    cells: which blocks are there, the attributes of the inputs and
    buttons, and the texts that change. *)

Record Input : Type := mkInput {
  input_type : string;
  input_placeholder : string;
  input_value : string;
  input_disabled : bool
}.

Record Button : Type := mkButton {
  button_label : string;
  button_disabled : bool
}.

(** The four [let]s of [render2FAStep] (lines 172-175) after the chain of
    [if]s (lines 177-196). *)
Record Framing : Type := mkFraming {
  title : string;
  description : string;
  inputPlaceholder : string;
  inputType : string
}.

(** [challengeMetadata?.officeVerificationStep] *)
Definition metadata_step (s : State) : option string :=
  match challengeMetadata s with
  | Some m => officeVerificationStep m
  | None => None
  end.

(** [challengeMetadata?.maskedEmail] *)
Definition metadata_maskedEmail (s : State) : option string :=
  match challengeMetadata s with
  | Some m => maskedEmail m
  | None => None
  end.

(** [challengeMetadata?.hasCodeLink], as a condition *)
Definition metadata_hasCodeLink (s : State) : bool :=
  match challengeMetadata s with
  | Some m => hasCodeLink m
  | None => false
  end.

(** Lines 167-168. *)
Definition isIdentityVerification (s : State) : bool :=
  JS.strict_eq (challengeType s) "EMAIL"
  && JS.strict_eq (metadata_step s) "EMAIL_ADDRESS".

Definition isEmailOTP (s : State) : bool :=
  JS.strict_eq (challengeType s) "EMAIL"
  && JS.strict_eq (metadata_step s) "EMAIL_OTP".

(** Lines 172-196. *)
Definition framing (s : State) : Framing :=
  if isIdentityVerification s then
    mkFraming "Help us protect your account"
      (if JS.truthy_opt (metadata_maskedEmail s)
       then "To verify this is your email address, enter it below. We'll send a code to "
            ++ JS.or_else (metadata_maskedEmail s) ""
            ++ " to verify your account."
       else "Please enter your full recovery email address to receive a verification code.")
      "Email address" "email"
  else if isEmailOTP s || JS.strict_eq (challengeType s) "EMAIL" then
    mkFraming "Enter code"
      "We sent a code to your email. Please enter it below." "Code" "text"
  else if JS.strict_eq (challengeType s) "SMS" then
    mkFraming "Enter code"
      "We sent a code to your phone. Please enter it below." "Code" "tel"
  else if isPush s then
    mkFraming "Approve request"
      "Check your Microsoft Authenticator app to approve the sign-in request."
      "Code" "text"
  else
    mkFraming "Verify your identity"
      "Please select a way to verify your identity." "Code" "text".

(** The block shown for a step. *)
Inductive Panel : Type :=
| EmailPanel (field : Input) (next : Button)
| PasswordPanel (pill : string) (field : Input) (toggle_label : string)
                (signIn : Button)
| TwoFAPanel (pill heading text : string) (field : option Input)
             (verify : Button) (codeLink : bool)
| SuccessPanel.

(** [render2FAStep], lines 166-243. *)
Definition render2FAStep (s : State) : Panel :=
  TwoFAPanel (email s) (title (framing s)) (description (framing s))
    (if negb (isPush s)
     then Some (mkInput (inputType (framing s)) (inputPlaceholder (framing s))
                        (twoFACode s) (isLoading s))
     else None)
    (mkButton (if isLoading s then "Verifying..."
               else if isPush s then "I've approved it" else "Verify")
              (isLoading s))
    (metadata_hasCodeLink s).

(** What [Home] returns, lines 245-425. *)
Record Page : Type := mkPage {
  backArrow : option Button;
  banner : option string;
  panel : Panel;
  options : option string
}.

Definition Home (s : State) : Page :=
  mkPage
    (if step_is s StepPassword || step_is s Step2FA
     then Some (mkButton "Go back" (isLoading s)) else None)
    (if JS.truthy_opt (error s) then error s else None)
    match step s with
    | StepEmail =>
        EmailPanel
          (mkInput "email" "Email, phone, or Skype" (email s) (isLoading s))
          (mkButton (if isLoading s then "Please wait..." else "Next")
                    (isLoading s))
    | StepPassword =>
        PasswordPanel (email s)
          (mkInput (if showPassword s then "text" else "password") "Password"
                   (password s) (isLoading s))
          (if showPassword s then "Hide password" else "Show password")
          (mkButton (if isLoading s then "Signing in..." else "Sign in")
                    (isLoading s))
    | Step2FA => render2FAStep s
    | StepSuccess => SuccessPanel
    end
    (if step_is s StepEmail || step_is s StepPassword || step_is s Step2FA
     then Some (if step_is s StepEmail then "Sign-in options"
                else "Other ways to sign in")
     else None).

(** The inputs and the submit button of a panel. *)
Definition panel_field (p : Panel) : option Input :=
  match p with
  | EmailPanel i _ => Some i
  | PasswordPanel _ i _ _ => Some i
  | TwoFAPanel _ _ _ i _ _ => i
  | SuccessPanel => None
  end.

Definition panel_submit (p : Panel) : option Button :=
  match p with
  | EmailPanel _ b => Some b
  | PasswordPanel _ _ _ b => Some b
  | TwoFAPanel _ _ _ _ b _ => Some b
  | SuccessPanel => None
  end.

Definition panel_heading (p : Panel) : string :=
  match p with
  | EmailPanel _ _ => "Sign in"
  | PasswordPanel _ _ _ _ => "Enter password"
  | TwoFAPanel _ h _ _ _ _ => h
  | SuccessPanel => "Success!"
  end.

(** ** More of what holds in every reachable world *)

(** A string of white space only ([s.trim()] is then empty). *)
Fixpoint all_white (s : string) : bool :=
  match s with
  | EmptyString => true
  | String c r => JS.isWhiteSpace c && all_white r
  end.

(** A request that waits was built from the cells as they still are, and
    it passed the guard of its handler. *)
Definition request_from (s : State) (rq : Request) : Prop :=
  match rq with
  | PostInitiate em => em = email s /\ JS.truthy (JS.trim em) = true
  | PostPassword sid pw =>
      sid = sessionId s /\ pw = password s
      /\ JS.truthy_opt sid = true /\ JS.truthy (JS.trim pw) = true
  | Post2FA sid code =>
      sid = sessionId s /\ code = twoFACode s
      /\ JS.truthy_opt sid = true
      /\ (isPush s = true \/ JS.truthy (JS.trim code) = true)
  end.

Record tidy (w : World) : Prop := mkTidy {
  tidy_requests : forall rq, In rq (outstanding w) -> request_from (ui w) rq;
  tidy_first : step (ui w) = StepEmail -> password (ui w) = "";
  tidy_late :
    step (ui w) = Step2FA \/ step (ui w) = StepSuccess ->
    JS.truthy_opt (sessionId (ui w)) = true
    /\ JS.truthy (JS.trim (password (ui w))) = true;
  tidy_loading : isLoading (ui w) = true -> error (ui w) = None;
  tidy_error : error (ui w) <> Some ""
}.

(** The step graph: forwards by a response, backwards by the arrow. *)
Definition forward (a b : LoginStep) : bool :=
  match a, b with
  | StepEmail, StepPassword
  | StepPassword, Step2FA
  | StepPassword, StepSuccess
  | Step2FA, StepSuccess => true
  | _, _ => false
  end.

Definition backward (a b : LoginStep) : bool :=
  match a, b with
  | StepPassword, StepEmail
  | Step2FA, StepPassword => true
  | _, _ => false
  end.

Definition is_settle (e : Event) : bool :=
  match e with
  | Settle _ _ => true
  | _ => false
  end.

(** The form whose handler sent a request. *)
Definition form_of (rq : Request) : Event :=
  match rq with
  | PostInitiate _ => SubmitEmail
  | PostPassword _ _ => SubmitPassword
  | Post2FA _ _ => Submit2FA
  end.

(** ** Proof steps shared by the invariants *)

Ltac open_handlers :=
  unfold fire, send, resume, handleBack,
    handleEmailSubmit_start, handleEmailSubmit_resume,
    handlePasswordSubmit_start, handlePasswordSubmit_resume, enter2FA,
    handle2FASubmit_start, handle2FASubmit_resume.

Ltac close_coherent :=
  split; cbn;
  [ first [ left; split; reflexivity
          | right; split; [reflexivity | eexists; split; reflexivity] ]
  | intuition (try congruence)
  | intuition (try congruence) ].

(** ** Invariants *)

Lemma coherent_mount : coherent mount.
Proof.
  split; simpl.
  - left. split; reflexivity.
  - reflexivity.
  - discriminate.
Qed.

Lemma coherent_fire w e : coherent w -> coherent (fire w e).
Proof.
  intros [Hg Hc Hch].
  destruct w as [[st em pw code sp sid ld err ct cm] out]; simpl in *.
  destruct Hg as [[-> ->] | [-> [rq [-> Hst]]]].
  - destruct e as [v|v|v| | | | | | |k o]; destruct st; open_handlers; cbn.
    all: repeat case_match; simplify_eq/=.
    all: close_coherent.
  - destruct rq; simpl in Hst; subst st.
    all: destruct e as [v|v|v| | | | | | |[|k] o]; open_handlers; cbn.
    all: repeat case_match; simplify_eq/=.
    all: repeat match goal with
           | H : _ || _ = false |- _ => apply orb_false_elim in H; destruct H
           end; try discriminate.
    all: close_coherent.
Qed.

Theorem reachable_coherent w : reachable w -> coherent w.
Proof.
  induction 1 as [|w e _ IH].
  - exact coherent_mount.
  - apply coherent_fire, IH.
Qed.

Lemma conforming_reachable w : conforming w -> reachable w.
Proof. induction 1; constructor; assumption. Qed.

Lemma reachable_run w es : reachable w -> reachable (run w es).
Proof.
  revert w. induction es as [|e es IH]; intros w Hw; simpl.
  - exact Hw.
  - apply IH. constructor. exact Hw.
Qed.

Lemma has_session_fire w e :
  coherent w -> honours_contract w e = true -> has_session w ->
  has_session (fire w e).
Proof.
  intros [Hg _ _] Hk Hs. unfold has_session in *.
  destruct w as [[st em pw code sp sid ld err ct cm] out]; simpl in *.
  destruct Hg as [[-> ->] | [-> [rq [-> Hst]]]].
  - destruct e as [v|v|v| | | | | | |k o]; destruct st; open_handlers; cbn.
    all: repeat case_match; simplify_eq/=.
    all: intuition congruence.
  - destruct rq; simpl in Hst; subst st.
    all: destruct e as [v|v|v| | | | | | |[|k] o]; open_handlers; cbn.
    all: repeat case_match; simplify_eq/=.
    all: try (intuition congruence).
    all: intros _; cbn in Hk.
    all: repeat match goal with
           | H : data_success _ = true |- _ => rewrite H in Hk; cbn in Hk
           end.
    all: apply bool_decide_eq_true in Hk; exact Hk.
Qed.

Lemma conforming_has_session w : conforming w -> has_session w.
Proof.
  induction 1 as [|w e Hw IH Hk].
  - intros H. contradiction H. reflexivity.
  - apply has_session_fire; [|assumption..].
    apply reachable_coherent, conforming_reachable, Hw.
Qed.

Lemma conforming_run w es :
  conforming w -> keeps_contract w es = true -> conforming (run w es).
Proof.
  revert w. induction es as [|e es IH]; intros w Hw Hk; simpl in *.
  - exact Hw.
  - apply andb_true_iff in Hk as [He Hes].
    apply IH; [constructor|]; assumption.
Qed.

(** The spec's tests for "carries a challenge" and "server message" are
    the truthiness tests of the code. *)
Lemma spec_carries_challenge_truthy data :
  spec_carries_challenge data = JS.truthy_opt (data_challengeType data).
Proof.
  unfold spec_carries_challenge, JS.truthy_opt.
  destruct (data_challengeType data) as [[|c t]|]; reflexivity.
Qed.

Lemma spec_server_message_or_else data fallback :
  spec_server_message data fallback = JS.or_else (data_message data) fallback.
Proof.
  unfold spec_server_message, JS.or_else.
  destruct (data_message data) as [[|c t]|]; reflexivity.
Qed.

(** A request that waits has been sent from the step that is still shown,
    and it is the only one. *)
Lemma outstanding_lookup w k rq :
  reachable w -> outstanding w !! k = Some rq ->
  outstanding w = [rq] /\ k = 0 /\ step (ui w) = sent_at rq
  /\ isLoading (ui w) = true.
Proof.
  intros Hw Hk. destruct (reachable_coherent w Hw) as [Hg _ _].
  destruct Hg as [[_ Ho] | [Hl [rq' [Ho Hs]]]]; rewrite Ho in Hk.
  - discriminate.
  - destruct k as [|k]; simpl in Hk; [|discriminate].
    injection Hk as <-. auto.
Qed.

(** ** The response contract (claim C1) *)

(** C1, as the code has it.  A verify-secret response with a truthy
    [challengeType] stores the challenge and shows the second-factor step
    whatever [success] says.  A verify-second-factor response is tested for
    [success] first: when it is true the step becomes Success and the
    stored challenge stays as it was, and only when it is false does an
    attached [challengeType] replace the challenge (the step stays, the
    typed code is emptied).  The initiate handler never reads
    [challengeType] or [challengeMetadata]. *)
Theorem challenge_precedence_by_call :
  (forall data s,
      JS.truthy_opt (data_challengeType data) = true ->
      handlePasswordSubmit_resume (Fulfilled data) s
      = setIsLoading false (enter2FA data s))
  /\ (forall data s,
        JS.truthy_opt (data_challengeType data) = true ->
        data_success data = false ->
        let s' := handle2FASubmit_resume (Fulfilled data) s in
        step s' = step s
        /\ challengeType s' = data_challengeType data
        /\ challengeMetadata s' = data_challengeMetadata data
        /\ twoFACode s' = "")
  /\ (forall data s,
        data_success data = true ->
        handle2FASubmit_resume (Fulfilled data) s
        = setIsLoading false (setStep StepSuccess s))
  /\ (forall ok sid st ct ct' cm cm' msg s,
        handleEmailSubmit_resume (Fulfilled (mkData ok sid st ct cm msg)) s
        = handleEmailSubmit_resume (Fulfilled (mkData ok sid st ct' cm' msg)) s).
Proof.
  split; [|split; [|split]].
  - intros data s Hc. unfold handlePasswordSubmit_resume.
    rewrite Hc. destruct (data_success data); reflexivity.
  - intros data s Hc Hok. unfold handle2FASubmit_resume.
    rewrite Hok, Hc.
    destruct (JS.truthy_opt (data_message data)); repeat split.
  - intros data s Hok. unfold handle2FASubmit_resume. rewrite Hok. reflexivity.
  - intros ok sid st ct ct' cm cm' msg s. reflexivity.
Qed.

(** At the second-factor step, showing the SMS challenge, the response
    [{success: true, challengeType: "EMAIL"}] ends the flow: the step is
    Success and the stored challenge is still SMS. *)
Lemma success_hides_challenge :
  JS.truthy_opt (data_challengeType Sample.verified_with_challenge) = true
  /\ step (ui (run mount Sample.code_sent)) = Step2FA
  /\ step (ui (fire (run mount Sample.code_sent)
                    (Settle 0 (Fulfilled Sample.verified_with_challenge))))
     = StepSuccess
  /\ challengeType (ui (fire (run mount Sample.code_sent)
                             (Settle 0 (Fulfilled Sample.verified_with_challenge))))
     = Some "SMS".
Proof. vm_compute. repeat split; reflexivity. Qed.

(** ** The verify-secret classification (claim C2) *)

(** C2.  When a verify-secret response arrives, the component shows the
    password step, and the state after the handler has run is the spec's
    three-way classification of the response (challenge, else success,
    else rejection) with the loading flag lowered. *)
Theorem verify_secret_classification w k sid pw data :
  reachable w ->
  outstanding w !! k = Some (PostPassword sid pw) ->
  step (ui w) = StepPassword
  /\ ui (fire w (Settle k (Fulfilled data)))
     = setIsLoading false (spec_classify_secret data (ui w)).
Proof.
  intros Hw Hk.
  destruct (outstanding_lookup w k _ Hw Hk) as (Ho & -> & Hs & Hl).
  destruct (reachable_coherent w Hw) as [_ Hc _].
  simpl in Hs. split; [exact Hs|].
  specialize (Hc (or_intror Hs)).
  unfold fire. rewrite Hk. cbn [rendered negb resume ui].
  unfold handlePasswordSubmit_resume, spec_classify_secret, enter2FA.
  rewrite spec_carries_challenge_truthy, spec_server_message_or_else.
  destruct (ui w) as [st em pw' code sp sid' ld err ct cm]; simpl in *; subst.
  destruct (data_success data), (JS.truthy_opt (data_challengeType data));
    try reflexivity.
  destruct (_ || _); reflexivity.
Qed.

(** The password request of the sample run is answered with the SMS
    challenge. *)
Lemma verify_secret_classification_witness :
  step (ui (run mount Sample.password_sent)) = StepPassword
  /\ ui (fire (run mount Sample.password_sent)
              (Settle 0 (Fulfilled Sample.sms_challenge)))
     = setIsLoading false
         (spec_classify_secret Sample.sms_challenge
            (ui (run mount Sample.password_sent))).
Proof.
  apply (verify_secret_classification _ 0 (Some "s1") "hunter2").
  - apply reachable_run, reachable_mount.
  - reflexivity.
Defined.

(** ** Going back (claim C3) *)

(** C3, as the code has it.  [handleBack] at the second-factor step shows
    the password step, empties the typed code and the error, and leaves
    every other cell as it was: the stored challenge and the password
    among them. *)
Theorem back_from_second_factor s :
  step s = Step2FA ->
  step (handleBack s) = StepPassword
  /\ twoFACode (handleBack s) = ""
  /\ error (handleBack s) = None
  /\ challengeType (handleBack s) = challengeType s
  /\ challengeMetadata (handleBack s) = challengeMetadata s
  /\ password (handleBack s) = password s
  /\ email (handleBack s) = email s
  /\ sessionId (handleBack s) = sessionId s
  /\ isLoading (handleBack s) = isLoading s.
Proof.
  intros Hs. unfold handleBack. rewrite Hs. repeat split.
Qed.

Lemma back_from_second_factor_witness :
  step (ui (run mount Sample.to_2fa)) = Step2FA
  /\ step (handleBack (ui (run mount Sample.to_2fa))) = StepPassword
  /\ twoFACode (handleBack (ui (run mount Sample.to_2fa))) = "".
Proof.
  split; [reflexivity|].
  destruct (back_from_second_factor (ui (run mount Sample.to_2fa)) eq_refl)
    as (H1 & H2 & _).
  split; assumption.
Defined.

(** After the sample run to the second-factor step, going back leaves the
    SMS challenge stored and the submitted password in its cell. *)
Lemma back_keeps_challenge_and_password :
  step (ui (run mount Sample.to_2fa)) = Step2FA
  /\ ui (fire (run mount Sample.to_2fa) ClickBack)
     = handleBack (ui (run mount Sample.to_2fa))
  /\ challengeType (handleBack (ui (run mount Sample.to_2fa))) = Some "SMS"
  /\ password (handleBack (ui (run mount Sample.to_2fa))) = "hunter2".
Proof. vm_compute. repeat split; reflexivity. Qed.

(** ** The challenge cell (claim C4) *)

(** C4, as the code has it.  In every reachable world that shows the
    second-factor step a challenge type is stored (a non-empty string).
    No handler ever empties the cell, so the converse fails. *)
Theorem second_factor_has_challenge w :
  reachable w ->
  step (ui w) = Step2FA ->
  exists t, challengeType (ui w) = Some t /\ t <> "".
Proof.
  intros Hw Hs. destruct (reachable_coherent w Hw) as [_ _ Hch].
  specialize (Hch Hs). unfold JS.truthy_opt in Hch.
  destruct (challengeType (ui w)) as [[|c t]|]; try discriminate.
  eexists. split; [reflexivity | discriminate].
Qed.

Lemma second_factor_has_challenge_witness :
  step (ui (run mount Sample.to_2fa)) = Step2FA
  /\ exists t, challengeType (ui (run mount Sample.to_2fa)) = Some t /\ t <> "".
Proof.
  split; [reflexivity|].
  apply second_factor_has_challenge.
  - apply reachable_run, reachable_mount.
  - reflexivity.
Defined.

(** The sample run to the second-factor step and back is reachable, shows
    the password step, and has the SMS challenge stored. *)
Lemma challenge_outlives_second_factor :
  reachable (run mount Sample.back_to_password)
  /\ step (ui (run mount Sample.back_to_password)) = StepPassword
  /\ challengeType (ui (run mount Sample.back_to_password)) = Some "SMS".
Proof.
  split; [apply reachable_run, reachable_mount | split; reflexivity].
Qed.

(** ** The session cell (claim C5) *)

(** C5, as the code has it.  While the server keeps the initiate contract,
    every reachable world that shows a step other than the first has a
    session id stored.  No handler ever empties the cell, so the converse
    fails. *)
Theorem later_steps_have_session w :
  conforming w ->
  step (ui w) <> StepEmail ->
  is_Some (sessionId (ui w)).
Proof. intros Hw. exact (conforming_has_session w Hw). Qed.

Lemma later_steps_have_session_witness :
  conforming (run mount Sample.to_2fa)
  /\ step (ui (run mount Sample.to_2fa)) <> StepEmail
  /\ is_Some (sessionId (ui (run mount Sample.to_2fa))).
Proof.
  assert (Hc : conforming (run mount Sample.to_2fa))
    by (apply conforming_run; [apply conforming_mount | reflexivity]).
  assert (Hs : step (ui (run mount Sample.to_2fa)) <> StepEmail)
    by discriminate.
  exact (conj Hc (conj Hs (later_steps_have_session _ Hc Hs))).
Defined.

(** The sample run to the password step and back keeps the contract, shows
    the first step, and still has the session id stored. *)
Lemma session_outlives_going_back :
  conforming (run mount Sample.back_to_email)
  /\ step (ui (run mount Sample.back_to_email)) = StepEmail
  /\ sessionId (ui (run mount Sample.back_to_email)) = Some "s1".
Proof.
  split; [|split; reflexivity].
  apply conforming_run; [apply conforming_mount | reflexivity].
Qed.

(** ** Rejections (claim C6) *)

(** C6, as the code has it.  A response with [success] false and no
    challenge is a rejection.  The password handler then empties the
    password and stores the server message, or "Invalid password or login
    failed" when there is none; the second-factor handler stores the server
    message, or "Invalid code", and leaves the typed code where it is.
    Both keep the e-mail, the session id and the step. *)
Theorem rejection_effects data s :
  data_success data = false ->
  JS.truthy_opt (data_challengeType data) = false ->
  (password (handlePasswordSubmit_resume (Fulfilled data) s) = ""
   /\ error (handlePasswordSubmit_resume (Fulfilled data) s)
      = Some (JS.or_else (data_message data) "Invalid password or login failed")
   /\ email (handlePasswordSubmit_resume (Fulfilled data) s) = email s
   /\ sessionId (handlePasswordSubmit_resume (Fulfilled data) s) = sessionId s
   /\ step (handlePasswordSubmit_resume (Fulfilled data) s) = step s)
  /\ (twoFACode (handle2FASubmit_resume (Fulfilled data) s) = twoFACode s
      /\ error (handle2FASubmit_resume (Fulfilled data) s)
         = Some (JS.or_else (data_message data) "Invalid code")
      /\ email (handle2FASubmit_resume (Fulfilled data) s) = email s
      /\ sessionId (handle2FASubmit_resume (Fulfilled data) s) = sessionId s
      /\ step (handle2FASubmit_resume (Fulfilled data) s) = step s).
Proof.
  intros Hok Hc.
  unfold handlePasswordSubmit_resume, handle2FASubmit_resume.
  rewrite Hok, Hc. repeat split.
Qed.

Lemma rejection_effects_witness :
  password (handlePasswordSubmit_resume (Fulfilled Sample.rejected)
              (ui (run mount Sample.password_sent))) = ""
  /\ twoFACode (handle2FASubmit_resume (Fulfilled Sample.rejected)
                  (ui (run mount Sample.code_sent))) = "000000".
Proof.
  split.
  - exact (proj1 (proj1 (rejection_effects Sample.rejected
                           (ui (run mount Sample.password_sent))
                           eq_refl eq_refl))).
  - exact (proj1 (proj2 (rejection_effects Sample.rejected
                           (ui (run mount Sample.code_sent))
                           eq_refl eq_refl))).
Defined.

(** The code request of the sample run is answered with [{success: false}]:
    the step is unchanged, the fallback message is shown, and the typed
    code "000000" is still in its cell. *)
Lemma rejected_code_is_kept :
  data_success Sample.rejected = false
  /\ data_challengeType Sample.rejected = None
  /\ step (ui (run mount Sample.code_sent)) = Step2FA
  /\ step (ui (fire (run mount Sample.code_sent)
                    (Settle 0 (Fulfilled Sample.rejected)))) = Step2FA
  /\ error (ui (fire (run mount Sample.code_sent)
                     (Settle 0 (Fulfilled Sample.rejected)))) = Some "Invalid code"
  /\ twoFACode (ui (fire (run mount Sample.code_sent)
                         (Settle 0 (Fulfilled Sample.rejected)))) = "000000".
Proof. vm_compute. repeat split; reflexivity. Qed.

(** ** Transport failures (claim C7) *)

(** C7.  When one of the three handlers has sent its request and the
    awaited part throws, the state after the handler has run has the retry
    message as its error and the loading flag lowered; the step, the
    e-mail, the password, the typed code and the session id are those of
    the state in which the form was submitted.  The same two writes are
    all the handler does to whatever state it resumes in. *)
Theorem transport_failure_effects s s1 rq :
  handleEmailSubmit_start s = Some (s1, rq)
  \/ handlePasswordSubmit_start s = Some (s1, rq)
  \/ handle2FASubmit_start s = Some (s1, rq) ->
  error (resume rq Thrown s1) = Some retry_message
  /\ step (resume rq Thrown s1) = step s
  /\ email (resume rq Thrown s1) = email s
  /\ password (resume rq Thrown s1) = password s
  /\ twoFACode (resume rq Thrown s1) = twoFACode s
  /\ sessionId (resume rq Thrown s1) = sessionId s
  /\ isLoading (resume rq Thrown s1) = false
  /\ forall s2,
       resume rq Thrown s2 = setIsLoading false (setError (Some retry_message) s2).
Proof.
  unfold handleEmailSubmit_start, handlePasswordSubmit_start,
    handle2FASubmit_start.
  intros [H | [H | H]]; repeat case_match; simplify_eq; repeat split.
Qed.

Lemma transport_failure_effects_witness :
  handle2FASubmit_start Sample.typed_code
  = Some (Sample.code_loading, Post2FA (Some "s1") "000000")
  /\ error (handle2FASubmit_resume Thrown Sample.code_loading)
     = Some retry_message
  /\ step (handle2FASubmit_resume Thrown Sample.code_loading) = Step2FA
  /\ twoFACode (handle2FASubmit_resume Thrown Sample.code_loading) = "000000"
  /\ isLoading (handle2FASubmit_resume Thrown Sample.code_loading) = false.
Proof.
  assert (Hsent : handle2FASubmit_start Sample.typed_code
                  = Some (Sample.code_loading, Post2FA (Some "s1") "000000"))
    by (vm_compute; reflexivity).
  destruct (transport_failure_effects _ _ _ (or_intror (or_intror Hsent)))
    as (He & Hs & _ & _ & Hc & _ & Hl & _).
  exact (conj Hsent (conj He (conj Hs (conj Hc Hl)))).
Defined.

(** ** The loading flag (claim C8) *)

(** C8.  While [isLoading] is true each of the three handlers returns at
    its guard, before any setter and before [fetch], so submitting a form
    leaves the world as it was; whichever way the awaited part of a handler
    ends, [isLoading] is false once the handler has run; and a reachable
    world has at most one request that has not settled, none when
    [isLoading] is false. *)
Theorem one_request_at_a_time :
  (forall s,
      isLoading s = true ->
      handleEmailSubmit_start s = None
      /\ handlePasswordSubmit_start s = None
      /\ handle2FASubmit_start s = None)
  /\ (forall w,
        isLoading (ui w) = true ->
        fire w SubmitEmail = w /\ fire w SubmitPassword = w
        /\ fire w Submit2FA = w)
  /\ (forall rq o s, isLoading (resume rq o s) = false)
  /\ (forall w,
        reachable w ->
        List.length (outstanding w) <= 1
        /\ (isLoading (ui w) = false -> outstanding w = [])
        /\ (forall k o,
              is_Some (outstanding w !! k) ->
              isLoading (ui (fire w (Settle k o))) = false
              /\ outstanding (fire w (Settle k o)) = [])).
Proof.
  assert (Hstart : forall s, isLoading s = true ->
            handleEmailSubmit_start s = None
            /\ handlePasswordSubmit_start s = None
            /\ handle2FASubmit_start s = None).
  { intros s Hl.
    unfold handleEmailSubmit_start, handlePasswordSubmit_start,
      handle2FASubmit_start.
    rewrite Hl, !orb_true_r. cbn.
    destruct (negb (isPush s) && _); auto. }
  assert (Hresume : forall rq o s, isLoading (resume rq o s) = false).
  { intros [] o s; reflexivity. }
  split; [exact Hstart|]. split; [|split; [exact Hresume|]].
  - intros w Hl. destruct (Hstart _ Hl) as (H1 & H2 & H3).
    unfold fire. rewrite H1, H2, H3. cbn.
    repeat split; destruct (negb _); reflexivity.
  - intros w Hw. destruct (reachable_coherent w Hw) as [Hg _ _].
    destruct Hg as [[Hl Ho] | [Hl [rq [Ho _]]]]; rewrite Ho, ?Hl.
    + split; [simpl; lia|]. split; [reflexivity|].
      intros k o [x Hx]. discriminate.
    + split; [simpl; lia|]. split; [discriminate|].
      intros [|k] o [x Hx]; [|discriminate].
      unfold fire. rewrite Ho. cbn. split; [apply Hresume | reflexivity].
Qed.

Lemma one_request_at_a_time_witness :
  isLoading (ui (run mount Sample.code_sent)) = true
  /\ fire (run mount Sample.code_sent) Submit2FA = run mount Sample.code_sent
  /\ List.length (outstanding (run mount Sample.code_sent)) <= 1.
Proof.
  destruct one_request_at_a_time as (_ & Hfire & _ & Hreach).
  split; [reflexivity|]. split.
  - exact (proj2 (proj2 (Hfire (run mount Sample.code_sent) eq_refl))).
  - exact (proj1 (Hreach _ (reachable_run _ _ reachable_mount))).
Defined.

(** ** Initiation (claim C9) *)

(** C9, as the code has it.  When the e-mail form is submitted with an
    e-mail that is not blank and nothing is loading, the request is sent,
    and a response with [success] true stores the [sessionId] of the
    response and shows the password step, whatever [status] says.  While
    the server keeps the initiate contract, every reachable world that
    shows the password step has a session id stored; the handler does not
    test [data.sessionId], so without the contract the password step can
    be shown with none. *)
Theorem initiate_success_enters_password :
  (forall s data,
      step s = StepEmail ->
      JS.trim (email s) <> "" ->
      isLoading s = false ->
      data_success data = true ->
      exists s1,
        handleEmailSubmit_start s = Some (s1, PostInitiate (email s))
        /\ step s1 = StepEmail
        /\ step (handleEmailSubmit_resume (Fulfilled data) s1) = StepPassword
        /\ sessionId (handleEmailSubmit_resume (Fulfilled data) s1)
           = data_sessionId data)
  /\ (forall w,
        conforming w ->
        step (ui w) = StepPassword ->
        is_Some (sessionId (ui w))).
Proof.
  split.
  - intros s data Hs Ht Hl Hok. eexists. split; [|split; [|split]].
    + unfold handleEmailSubmit_start. rewrite Hl.
      destruct (JS.trim (email s)); [contradiction Ht|]; reflexivity.
    + exact Hs.
    + unfold handleEmailSubmit_resume. rewrite Hok.
      destruct (JS.strict_eq _ _); reflexivity.
    + unfold handleEmailSubmit_resume. rewrite Hok.
      destruct (JS.strict_eq _ _); reflexivity.
  - intros w Hw Hs. apply (conforming_has_session w Hw). congruence.
Qed.

Lemma initiate_success_enters_password_witness :
  step (ui (run mount Sample.to_password)) = StepPassword
  /\ is_Some (sessionId (ui (run mount Sample.to_password))).
Proof.
  split; [reflexivity|].
  apply (proj2 initiate_success_enters_password).
  - apply conforming_run; [apply conforming_mount | reflexivity].
  - reflexivity.
Defined.

(** The initiate response [{success: true, status: "requires_password"}]
    carries no [sessionId]: the run is reachable, the password step is
    shown, and the session cell is empty. *)
Lemma password_step_without_session :
  data_success Sample.initiated_without_session = true
  /\ data_sessionId Sample.initiated_without_session = None
  /\ reachable (run mount Sample.to_password_without_session)
  /\ step (ui (run mount Sample.to_password_without_session)) = StepPassword
  /\ sessionId (ui (run mount Sample.to_password_without_session)) = None.
Proof.
  split; [reflexivity|]. split; [reflexivity|].
  split; [apply reachable_run, reachable_mount|].
  vm_compute. split; reflexivity.
Qed.

(** ** The typed code at the password step (claim C10) *)

(** C10.  In every reachable world that shows the password step the
    second-factor input is the empty string. *)
Theorem password_step_has_no_code w :
  reachable w ->
  step (ui w) = StepPassword ->
  twoFACode (ui w) = "".
Proof.
  intros Hw Hs. destruct (reachable_coherent w Hw) as [_ Hc _].
  apply Hc. right. exact Hs.
Qed.

Lemma password_step_has_no_code_witness :
  step (ui (run mount (Sample.code_sent ++ [Settle 0 Thrown; ClickBack])))
  = StepPassword
  /\ twoFACode (ui (run mount (Sample.code_sent ++ [Settle 0 Thrown; ClickBack])))
     = "".
Proof.
  split; [reflexivity|].
  apply password_step_has_no_code.
  - apply reachable_run, reachable_mount.
  - reflexivity.
Defined.

(** ** More invariants *)

Ltac bool_facts :=
  repeat match goal with
    | H : _ || _ = false |- _ => apply orb_false_elim in H; destruct H
    | H : _ && _ = true |- _ => apply andb_prop in H; destruct H
    | H : _ && _ = false |- _ => apply andb_false_iff in H; destruct H
    | H : negb _ = false |- _ => apply negb_false_iff in H
    | H : negb _ = true |- _ => apply negb_true_iff in H
    end.

Lemma or_else_truthy v d : d <> "" -> JS.or_else v d <> "".
Proof.
  intros Hd. unfold JS.or_else.
  destruct v as [[|c t]|]; simpl; congruence.
Qed.

Lemma tidy_mount : tidy mount.
Proof.
  split; simpl; try discriminate; try reflexivity.
  - intros rq [].
  - intros [H | H]; discriminate.
Qed.

Ltac close_error :=
  first
    [ assumption
    | discriminate
    | intros [= Hx]; eapply or_else_truthy; [|exact Hx]; discriminate
    | intros Hx;
      match goal with
      | H : JS.truthy_opt _ = true |- _ => rewrite Hx in H; discriminate
      end ].

Ltac close_tidy :=
  split; cbn;
  [ intros ? Hin; cbn in Hin;
    repeat (destruct Hin as [<- | Hin]); try contradiction;
    cbn; unfold JS.trim; intuition (try congruence)
  | intuition (try congruence)
  | intuition (try congruence)
  | intuition (try congruence)
  | close_error ].

Lemma tidy_fire w e : coherent w -> tidy w -> tidy (fire w e).
Proof.
  intros [Hg _ _] [Hr Hf Hl Hld He].
  destruct w as [[st em pw code sp sid ld err ct cm] out]; simpl in *.
  unfold JS.trim in *.
  destruct Hg as [[-> ->] | [-> [rq [-> Hst]]]].
  - clear Hr Hld.
    destruct e as [v|v|v| | | | | | |k o]; destruct st; open_handlers; cbn.
    all: repeat case_match; simplify_eq/=; bool_facts.
    all: close_tidy.
  - specialize (Hr rq (or_introl eq_refl)). specialize (Hld eq_refl). subst err.
    destruct rq; simpl in Hst; subst st; cbn in Hr; unfold JS.trim in Hr.
    all: destruct e as [v|v|v| | | | | | |[|k] o]; open_handlers; cbn.
    all: repeat case_match; simplify_eq/=; bool_facts; try discriminate.
    all: close_tidy.
Qed.

Lemma reachable_tidy w : reachable w -> tidy w.
Proof.
  induction 1 as [|w e Hw IH].
  - exact tidy_mount.
  - apply tidy_fire; [apply reachable_coherent, Hw | exact IH].
Qed.

Lemma lookup_In (w : World) k rq :
  outstanding w !! k = Some rq -> In rq (outstanding w).
Proof.
  intros Hk. apply list_elem_of_In. eapply list_elem_of_lookup_2. exact Hk.
Qed.

Lemma request_from_lookup w k rq :
  reachable w -> outstanding w !! k = Some rq -> request_from (ui w) rq.
Proof.
  intros Hw Hk. apply (tidy_requests w (reachable_tidy w Hw)).
  eapply lookup_In, Hk.
Qed.

(** ** Requests in flight *)

(** X1.  A request that has not settled was built from the cells as they
    still are (the e-mail, the session id, the password, the typed code),
    and it passed its guard: the e-mail or the password is not blank, the
    session id is a non-empty string, and a code is blank only for a push
    challenge. *)
Theorem waiting_request_matches_cells w k rq :
  reachable w ->
  outstanding w !! k = Some rq ->
  request_from (ui w) rq.
Proof. intros Hw Hk. exact (request_from_lookup w k rq Hw Hk). Qed.

Lemma waiting_request_matches_cells_witness :
  request_from (ui (run mount Sample.code_sent)) (Post2FA (Some "s1") "000000").
Proof.
  apply (waiting_request_matches_cells _ 0).
  - apply reachable_run, reachable_mount.
  - vm_compute. reflexivity.
Defined.

(** X2.  After a transport failure, submitting the same form again sends
    the same request and puts the component back in the world it was in
    while it waited: nothing was lost and nothing has to be typed again. *)
Theorem retry_after_transport_failure w k rq :
  reachable w ->
  outstanding w !! k = Some rq ->
  fire (fire w (Settle k Thrown)) (form_of rq) = w.
Proof.
  intros Hw Hk.
  pose proof (request_from_lookup w k rq Hw Hk) as Hr.
  pose proof (tidy_loading w (reachable_tidy w Hw)) as He.
  destruct (outstanding_lookup w k rq Hw Hk) as (Ho & -> & Hs & Hl).
  specialize (He Hl).
  destruct w as [[st em pw code sp sid ld err ct cm] out]; simpl in *.
  subst out ld err st.
  destruct rq; open_handlers; unfold request_from, isPush in *; cbn in *;
    unfold JS.trim in *.
  - destruct Hr as [-> Ht]. rewrite Ht. reflexivity.
  - destruct Hr as (-> & -> & Hsid & Ht). rewrite Ht, Hsid. reflexivity.
  - destruct Hr as (-> & -> & Hsid & Hc). rewrite Hsid.
    destruct Hc as [Hc | Hc]; rewrite Hc; cbn; rewrite ?andb_false_r;
      reflexivity.
Qed.

Lemma retry_after_transport_failure_witness :
  fire (fire (run mount Sample.code_sent) (Settle 0 Thrown)) Submit2FA
  = run mount Sample.code_sent.
Proof.
  apply (retry_after_transport_failure _ 0 (Post2FA (Some "s1") "000000")).
  - apply reachable_run, reachable_mount.
  - vm_compute. reflexivity.
Defined.

(** ** The step graph *)

(** X3.  Once the success step is shown nothing changes any more: every
    event leaves the world as it is. *)
Theorem success_is_final w e :
  reachable w ->
  step (ui w) = StepSuccess ->
  fire w e = w.
Proof.
  intros Hw Hs. destruct (reachable_coherent w Hw) as [Hg _ _].
  destruct w as [[st em pw code sp sid ld err ct cm] out]; simpl in *.
  subst st.
  destruct Hg as [[-> ->] | [_ [rq [_ Hrq]]]].
  - destruct e; reflexivity.
  - destruct rq; discriminate.
Qed.

Lemma success_is_final_witness :
  step (ui (run mount Sample.to_success)) = StepSuccess
  /\ fire (run mount Sample.to_success) ClickBack = run mount Sample.to_success.
Proof.
  split; [vm_compute; reflexivity|].
  apply success_is_final.
  - apply reachable_run, reachable_mount.
  - vm_compute. reflexivity.
Defined.

(** X4.  An event either keeps the step, or it is a response and moves
    the step forwards (e-mail to password, password to second factor or
    success, second factor to success), or it is the back arrow and moves
    it one step back (password to e-mail, second factor to password).  A
    thrown request, typing and submitting never change the step. *)
Theorem step_moves_along_graph w e :
  reachable w ->
  step (ui (fire w e)) = step (ui w)
  \/ (exists k data, e = Settle k (Fulfilled data)
      /\ forward (step (ui w)) (step (ui (fire w e))) = true)
  \/ (e = ClickBack
      /\ backward (step (ui w)) (step (ui (fire w e))) = true).
Proof.
  intros Hw. destruct (reachable_coherent w Hw) as [Hg _ _].
  destruct w as [[st em pw code sp sid ld err ct cm] out]; simpl in *.
  destruct Hg as [[-> ->] | [-> [rq [-> Hst]]]].
  - destruct e as [v|v|v| | | | | | |k o]; destruct st; open_handlers; cbn.
    all: repeat case_match; simplify_eq/=; auto.
  - destruct rq; simpl in Hst; subst st.
    all: destruct e as [v|v|v| | | | | | |[|k] [data|]]; open_handlers; cbn.
    all: repeat case_match; simplify_eq/=; auto.
    all: right; left; do 2 eexists; split; reflexivity.
Qed.

Lemma step_moves_along_graph_witness :
  step (ui (fire (run mount Sample.password_sent)
                 (Settle 0 (Fulfilled Sample.sms_challenge))))
  = step (ui (run mount Sample.password_sent))
  \/ (exists k data,
         Settle 0 (Fulfilled Sample.sms_challenge) = Settle k (Fulfilled data)
         /\ forward (step (ui (run mount Sample.password_sent)))
                    (step (ui (fire (run mount Sample.password_sent)
                                    (Settle 0 (Fulfilled Sample.sms_challenge)))))
            = true)
  \/ (Settle 0 (Fulfilled Sample.sms_challenge) = ClickBack
      /\ backward (step (ui (run mount Sample.password_sent)))
                  (step (ui (fire (run mount Sample.password_sent)
                                  (Settle 0 (Fulfilled Sample.sms_challenge)))))
         = true).
Proof.
  apply step_moves_along_graph.
  apply reachable_run, reachable_mount.
Defined.

(** X5.  Past the e-mail step the stored session id never changes, whatever
    happens next: only the initiate response writes it. *)
Theorem session_fixed_after_first_step w e :
  reachable w ->
  step (ui w) <> StepEmail ->
  sessionId (ui (fire w e)) = sessionId (ui w).
Proof.
  intros Hw Hs. destruct (reachable_coherent w Hw) as [Hg _ _].
  destruct w as [[st em pw code sp sid ld err ct cm] out]; simpl in *.
  destruct Hg as [[-> ->] | [-> [rq [-> Hst]]]].
  - destruct e as [v|v|v| | | | | | |k o]; destruct st; open_handlers; cbn.
    all: repeat case_match; simplify_eq/=; auto.
  - destruct rq; simpl in Hst; subst st; try congruence.
    all: destruct e as [v|v|v| | | | | | |[|k] [data|]]; open_handlers; cbn.
    all: repeat case_match; simplify_eq/=; auto.
Qed.

Lemma session_fixed_after_first_step_witness :
  step (ui (run mount Sample.password_sent)) <> StepEmail
  /\ sessionId (ui (fire (run mount Sample.password_sent)
                         (Settle 0 (Fulfilled Sample.sms_challenge))))
     = sessionId (ui (run mount Sample.password_sent)).
Proof.
  assert (Hs : step (ui (run mount Sample.password_sent)) <> StepEmail)
    by (vm_compute; discriminate).
  split; [exact Hs|].
  apply session_fixed_after_first_step; [|exact Hs].
  apply reachable_run, reachable_mount.
Defined.

(** ** Errors on the screen *)

(** X6.  Every error that is stored is on the screen: no handler stores the
    empty string, which the page would not show. *)
Theorem stored_error_is_shown w :
  reachable w ->
  banner (Home (ui w)) = error (ui w).
Proof.
  intros Hw. pose proof (tidy_error w (reachable_tidy w Hw)) as He.
  unfold Home, banner, JS.truthy_opt, JS.truthy.
  destruct (error (ui w)) as [[|c t]|]; [contradiction He|..]; reflexivity.
Qed.

Lemma stored_error_is_shown_witness :
  banner (Home (ui (run mount Sample.initiate_refused)))
  = error (ui (run mount Sample.initiate_refused)).
Proof.
  apply stored_error_is_shown.
  apply reachable_run, reachable_mount.
Defined.

(** X7.  While a request is in flight no error is stored and none is on
    the screen: the message of the attempt before is gone as soon as the
    next one starts. *)
Theorem no_error_while_loading w :
  reachable w ->
  isLoading (ui w) = true ->
  error (ui w) = None /\ banner (Home (ui w)) = None.
Proof.
  intros Hw Hl. pose proof (tidy_loading w (reachable_tidy w Hw) Hl) as He.
  split; [exact He|]. unfold Home, banner. rewrite He. reflexivity.
Qed.

Lemma no_error_while_loading_witness :
  isLoading (ui (run mount (Sample.initiate_refused ++ [SubmitEmail]))) = true
  /\ error (ui (run mount Sample.initiate_refused)) = Some "Unknown account"
  /\ error (ui (run mount (Sample.initiate_refused ++ [SubmitEmail]))) = None.
Proof.
  assert (Hl : isLoading (ui (run mount (Sample.initiate_refused ++ [SubmitEmail])))
               = true) by (vm_compute; reflexivity).
  split; [exact Hl|]. split; [vm_compute; reflexivity|].
  apply (no_error_while_loading _ (reachable_run _ _ reachable_mount) Hl).
Defined.

(** X8.  A second-factor response with [success] false and a new challenge
    stores the server message as the error when there is one and leaves no
    error at all when there is none. *)
Theorem chained_challenge_message w k sid code data :
  reachable w ->
  outstanding w !! k = Some (Post2FA sid code) ->
  data_success data = false ->
  JS.truthy_opt (data_challengeType data) = true ->
  error (ui (fire w (Settle k (Fulfilled data))))
  = (if JS.truthy_opt (data_message data) then data_message data else None)
  /\ step (ui (fire w (Settle k (Fulfilled data)))) = Step2FA
  /\ isLoading (ui (fire w (Settle k (Fulfilled data)))) = false.
Proof.
  intros Hw Hk Hok Hc.
  destruct (outstanding_lookup w k _ Hw Hk) as (Ho & -> & Hs & Hl).
  pose proof (tidy_loading w (reachable_tidy w Hw) Hl) as He.
  unfold fire. rewrite Hk. cbn [rendered negb resume ui].
  unfold handle2FASubmit_resume. rewrite Hok, Hc.
  destruct (JS.truthy_opt (data_message data)); cbn; auto.
Qed.

Lemma chained_challenge_message_witness :
  error (ui (fire (run mount Sample.code_sent)
                  (Settle 0 (Fulfilled Sample.sms_challenge)))) = None
  /\ step (ui (fire (run mount Sample.code_sent)
                    (Settle 0 (Fulfilled Sample.sms_challenge)))) = Step2FA
  /\ isLoading (ui (fire (run mount Sample.code_sent)
                         (Settle 0 (Fulfilled Sample.sms_challenge)))) = false.
Proof.
  apply (chained_challenge_message _ 0 (Some "s1") "000000" Sample.sms_challenge).
  - apply reachable_run, reachable_mount.
  - vm_compute. reflexivity.
  - reflexivity.
  - reflexivity.
Defined.

(** X9.  A refused initiate (a response with [success] false) keeps the
    e-mail step, the e-mail and the session cell, shows the server message
    or "Failed to initiate login", and leaves the form ready: submitting it
    again sends the same request. *)
Theorem refused_initiate w k em data :
  reachable w ->
  outstanding w !! k = Some (PostInitiate em) ->
  data_success data = false ->
  step (ui (fire w (Settle k (Fulfilled data)))) = StepEmail
  /\ email (ui (fire w (Settle k (Fulfilled data)))) = em
  /\ sessionId (ui (fire w (Settle k (Fulfilled data)))) = sessionId (ui w)
  /\ error (ui (fire w (Settle k (Fulfilled data))))
     = Some (JS.or_else (data_message data) "Failed to initiate login")
  /\ fire (fire w (Settle k (Fulfilled data))) SubmitEmail = w.
Proof.
  intros Hw Hk Hok.
  pose proof (request_from_lookup w k _ Hw Hk) as Hr.
  destruct (outstanding_lookup w k _ Hw Hk) as (Ho & -> & Hs & Hl).
  pose proof (tidy_loading w (reachable_tidy w Hw) Hl) as He.
  destruct w as [[st em' pw code sp sid ld err ct cm] out]; simpl in *.
  subst out ld err st. destruct Hr as [-> Ht].
  open_handlers; cbn. rewrite Hok. cbn.
  unfold JS.trim in *. rewrite Ht. cbn. repeat split.
Qed.

Lemma refused_initiate_witness :
  step (ui (run mount Sample.initiate_refused)) = StepEmail
  /\ error (ui (run mount Sample.initiate_refused)) = Some "Unknown account"
  /\ fire (run mount Sample.initiate_refused) SubmitEmail
     = run mount [ChangeEmail "a@x.com"; SubmitEmail].
Proof.
  destruct (refused_initiate (run mount [ChangeEmail "a@x.com"; SubmitEmail])
              0 "a@x.com" Sample.unknown_account
              (reachable_run _ _ reachable_mount) eq_refl eq_refl)
    as (Hs & _ & _ & He & Hf).
  exact (conj Hs (conj He Hf)).
Defined.

(** ** What a step leaves behind *)

(** X10.  At the e-mail step the password and the second-factor input are
    empty: going back from the password step throws the password away. *)
Theorem first_step_is_clean w :
  reachable w ->
  step (ui w) = StepEmail ->
  password (ui w) = "" /\ twoFACode (ui w) = "".
Proof.
  intros Hw Hs. split.
  - apply (tidy_first w (reachable_tidy w Hw) Hs).
  - apply (coh_code w (reachable_coherent w Hw)). left. exact Hs.
Qed.

Lemma first_step_is_clean_witness :
  step (ui (run mount (Sample.password_sent ++ [Settle 0 Thrown; ClickBack])))
  = StepEmail
  /\ password (ui (run mount (Sample.password_sent ++ [Settle 0 Thrown; ClickBack])))
     = ""
  /\ twoFACode (ui (run mount (Sample.password_sent ++ [Settle 0 Thrown; ClickBack])))
     = "".
Proof.
  assert (Hs : step (ui (run mount (Sample.password_sent
                                     ++ [Settle 0 Thrown; ClickBack])))
               = StepEmail) by (vm_compute; reflexivity).
  split; [exact Hs|].
  apply first_step_is_clean; [|exact Hs].
  apply reachable_run, reachable_mount.
Defined.



(** ** Guards *)

Lemma trimEnd_head c r : JS.isWhiteSpace c = false -> JS.trimEnd (String c r) <> "".
Proof.
  intros Hc. simpl. rewrite Hc. destruct (JS.trimEnd r); discriminate.
Qed.

(** [s.trim()] is empty exactly for a string of white space. *)
Lemma trim_truthy s : JS.truthy (JS.trim s) = negb (all_white s).
Proof.
  unfold JS.trim. induction s as [|c r IH]; [reflexivity|].
  cbn [JS.trimStart all_white].
  destruct (JS.isWhiteSpace c) eqn:Hc; cbn [andb negb].
  - exact IH.
  - pose proof (trimEnd_head c r Hc) as Hne.
    destruct (JS.trimEnd (String c r)); [contradiction Hne|]; reflexivity.
Qed.

(** X12.  The e-mail form is not sent exactly when the e-mail is made of
    white space only (the empty string included) or a request is in
    flight; the password form is not sent exactly when the password is
    made of white space only, a request is in flight, or the session id is
    missing or empty. *)
Theorem blank_input_is_not_sent s :
  (handleEmailSubmit_start s = None
   <-> all_white (email s) = true \/ isLoading s = true)
  /\ (handlePasswordSubmit_start s = None
      <-> all_white (password s) = true \/ isLoading s = true
          \/ JS.truthy_opt (sessionId s) = false).
Proof.
  unfold handleEmailSubmit_start, handlePasswordSubmit_start.
  rewrite !trim_truthy, !negb_involutive.
  destruct (all_white (email s)), (all_white (password s)), (isLoading s),
    (JS.truthy_opt (sessionId s)); cbn; split; split;
    intuition discriminate.
Qed.

(** X13.  At the second-factor step with nothing in flight the form does
    what the panel shows.  When the panel has no input (a push challenge)
    submitting sends the request with whatever the code cell holds, the
    empty string included.  When it has an input, the input shows the code
    cell, and submitting sends nothing exactly when that code is made of
    white space only. *)
Theorem second_factor_form_follows_panel w :
  reachable w ->
  step (ui w) = Step2FA ->
  isLoading (ui w) = false ->
  match panel_field (panel (Home (ui w))) with
  | None =>
      handle2FASubmit_start (ui w)
      = Some (setError None (setIsLoading true (ui w)),
              Post2FA (sessionId (ui w)) (twoFACode (ui w)))
  | Some i =>
      input_value i = twoFACode (ui w)
      /\ (handle2FASubmit_start (ui w) = None
          <-> all_white (twoFACode (ui w)) = true)
  end.
Proof.
  intros Hw Hs Hl.
  destruct (tidy_late w (reachable_tidy w Hw) (or_introl Hs)) as [Hsid _].
  unfold Home, panel, render2FAStep, panel_field, handle2FASubmit_start.
  rewrite Hs, Hl, Hsid, trim_truthy, negb_involutive. cbn.
  destruct (isPush (ui w)); cbn.
  - reflexivity.
  - split; [reflexivity|].
    destruct (all_white (twoFACode (ui w))); cbn; split;
      intuition discriminate.
Qed.

Lemma second_factor_form_follows_panel_witness :
  match panel_field (panel (Home (ui (run mount Sample.to_2fa)))) with
  | None =>
      handle2FASubmit_start (ui (run mount Sample.to_2fa))
      = Some (setError None (setIsLoading true (ui (run mount Sample.to_2fa))),
              Post2FA (sessionId (ui (run mount Sample.to_2fa)))
                      (twoFACode (ui (run mount Sample.to_2fa))))
  | Some i =>
      input_value i = twoFACode (ui (run mount Sample.to_2fa))
      /\ (handle2FASubmit_start (ui (run mount Sample.to_2fa)) = None
          <-> all_white (twoFACode (ui (run mount Sample.to_2fa))) = true)
  end.
Proof.
  apply second_factor_form_follows_panel.
  - apply reachable_run, reachable_mount.
  - vm_compute. reflexivity.
  - vm_compute. reflexivity.
Defined.

(** ** What the events never do *)

(** X14.  The e-mail cell is written only by typing into the e-mail input,
    which is there at the e-mail step and enabled when nothing is in
    flight; no response, no error and no back arrow touches it. *)
Theorem email_only_typed w e :
  email (ui (fire w e)) = email (ui w)
  \/ exists v, e = ChangeEmail v /\ step (ui w) = StepEmail
               /\ isLoading (ui w) = false /\ email (ui (fire w e)) = v.
Proof.
  destruct w as [[st em pw code sp sid ld err ct cm] out].
  destruct e as [v|v|v| | | | | | |k o]; destruct st, ld; open_handlers; cbn.
  all: repeat case_match; simplify_eq/=; auto.
  all: right; eexists; repeat split.
Qed.

(** X15.  A stored challenge type is never removed: whatever happens, a
    non-empty challenge type stays non-empty (a response may replace it by
    another one). *)
Theorem challenge_never_cleared w e :
  JS.truthy_opt (challengeType (ui w)) = true ->
  JS.truthy_opt (challengeType (ui (fire w e))) = true.
Proof.
  intros Hc.
  destruct w as [[st em pw code sp sid ld err ct cm] out]; simpl in *.
  destruct e as [v|v|v| | | | | | |k o]; destruct st, ld; open_handlers; cbn.
  all: repeat case_match; simplify_eq/=; auto.
Qed.

Lemma challenge_never_cleared_witness :
  JS.truthy_opt (challengeType (ui (run mount Sample.to_2fa))) = true
  /\ JS.truthy_opt
       (challengeType (ui (fire (run mount Sample.to_2fa) ClickBack))) = true.
Proof.
  assert (Hc : JS.truthy_opt (challengeType (ui (run mount Sample.to_2fa)))
               = true) by (vm_compute; reflexivity).
  exact (conj Hc (challenge_never_cleared _ ClickBack Hc)).
Defined.

(** X16.  While a request is in flight the user can change nothing but
    the show-password flag: every event other than the arrival of a
    response sends no request and leaves the cells as they are, except
    that the show-password button still toggles its flag. *)
Theorem frozen_while_loading w e :
  isLoading (ui w) = true ->
  is_settle e = false ->
  outstanding (fire w e) = outstanding w
  /\ (ui (fire w e) = ui w
      \/ (e = ToggleShowPassword /\ step (ui w) = StepPassword
          /\ ui (fire w e) = setShowPassword (negb (showPassword (ui w))) (ui w))).
Proof.
  intros Hl He.
  destruct w as [[st em pw code sp sid ld err ct cm] out]; simpl in *.
  subst ld.
  destruct e as [v|v|v| | | | | | |k o]; try discriminate.
  all: destruct st; open_handlers; cbn; rewrite ?andb_false_r, ?orb_true_r; cbn.
  all: repeat case_match; simplify_eq/=; auto.
Qed.

Lemma frozen_while_loading_witness :
  isLoading (ui (run mount Sample.password_sent)) = true
  /\ ui (fire (run mount Sample.password_sent) (ChangePassword "other"))
     = ui (run mount Sample.password_sent)
  /\ outstanding (fire (run mount Sample.password_sent) SubmitPassword)
     = outstanding (run mount Sample.password_sent).
Proof.
  assert (Hl : isLoading (ui (run mount Sample.password_sent)) = true)
    by (vm_compute; reflexivity).
  split; [exact Hl|]. split.
  - destruct (frozen_while_loading _ (ChangePassword "other") Hl eq_refl)
      as [_ [H | [H _]]]; [exact H | discriminate H].
  - exact (proj1 (frozen_while_loading _ SubmitPassword Hl eq_refl)).
Defined.

(** ** The second-factor panel *)

Lemma strict_eq_true v lit : JS.strict_eq v lit = true <-> v = Some lit.
Proof.
  unfold JS.strict_eq. destruct v as [t|].
  - rewrite String.eqb_eq. split; congruence.
  - split; discriminate.
Qed.

(** X17.  The approval framing is shown exactly for a push challenge
    (type APP or PUSH), and exactly then the panel has no input and the
    button of the idle form reads "I've approved it": the branches for
    EMAIL and SMS that are tested first never take a push challenge. *)
Theorem approval_framing_iff_push s :
  (title (framing s) = "Approve request" <-> isPush s = true)
  /\ (panel_field (render2FAStep s) = None <-> isPush s = true)
  /\ (isLoading s = false ->
      (panel_submit (render2FAStep s) = Some (mkButton "I've approved it" false)
       <-> isPush s = true)).
Proof.
  unfold framing, render2FAStep, panel_field, panel_submit,
    isIdentityVerification, isEmailOTP, isPush, JS.strict_eq.
  destruct (challengeType s) as [t|]; cbn.
  - destruct (String.eqb t "EMAIL") eqn:He, (String.eqb t "SMS") eqn:Hs,
      (String.eqb t "APP") eqn:Ha, (String.eqb t "PUSH") eqn:Hp; cbn.
    all: try (exfalso;
              repeat match goal with
                | H : String.eqb _ _ = true |- _ => apply String.eqb_eq in H
                end; congruence).
    all: repeat case_match; cbn.
    all: repeat split; intros; try discriminate; try reflexivity.
    all: repeat case_match; simplify_eq/=; try reflexivity.
  - repeat split; intros; try discriminate.
    repeat case_match; simplify_eq/=.
Qed.

(** X18.  For an EMAIL challenge the panel depends on one thing only:
    whether the verification step of the metadata is "EMAIL_ADDRESS".  If
    it is, the panel asks for the e-mail address, and names the masked
    address when there is one; for any other step, and when there is no
    metadata, it asks for the code that was sent by e-mail. *)
Theorem email_framing_by_stage s :
  challengeType s = Some "EMAIL" ->
  framing s
  = (if JS.strict_eq (metadata_step s) "EMAIL_ADDRESS"
     then mkFraming "Help us protect your account"
            (match metadata_maskedEmail s with
             | Some (String c m) =>
                 "To verify this is your email address, enter it below. We'll send a code to "
                 ++ String c m ++ " to verify your account."
             | _ => "Please enter your full recovery email address to receive a verification code."
             end)
            "Email address" "email"
     else mkFraming "Enter code"
            "We sent a code to your email. Please enter it below." "Code" "text")
  /\ panel_field (render2FAStep s)
     = Some (mkInput (inputType (framing s)) (inputPlaceholder (framing s))
                     (twoFACode s) (isLoading s)).
Proof.
  intros Hc.
  unfold render2FAStep, panel_field, framing, isIdentityVerification,
    isEmailOTP, isPush.
  rewrite Hc. cbn.
  destruct (JS.strict_eq (metadata_step s) "EMAIL_ADDRESS"); cbn.
  - split; [|reflexivity].
    destruct (metadata_maskedEmail s) as [[|c m]|]; reflexivity.
  - rewrite orb_true_r. split; reflexivity.
Qed.

Lemma email_framing_by_stage_witness :
  inputType (framing (mkState Step2FA "a@x.com" "hunter2" "" false (Some "s1")
                        false None (Some "EMAIL")
                        (Some (mkMetadata (Some "EMAIL_OTP") None false))))
  = "text".
Proof.
  pose proof (email_framing_by_stage
                (mkState Step2FA "a@x.com" "hunter2" "" false (Some "s1")
                   false None (Some "EMAIL")
                   (Some (mkMetadata (Some "EMAIL_OTP") None false)))
                eq_refl) as [H _].
  rewrite H. vm_compute. reflexivity.
Defined.

(** X19.  A challenge type that is none of EMAIL, SMS, APP and PUSH (a
    missing one included) gets the generic framing with a text input for a
    code, so the form can always be filled in and submitted. *)
Theorem unknown_challenge_gets_generic_framing s :
  challengeType s <> Some "EMAIL" ->
  challengeType s <> Some "SMS" ->
  challengeType s <> Some "APP" ->
  challengeType s <> Some "PUSH" ->
  framing s
  = mkFraming "Verify your identity"
      "Please select a way to verify your identity." "Code" "text"
  /\ panel_field (render2FAStep s)
     = Some (mkInput "text" "Code" (twoFACode s) (isLoading s)).
Proof.
  intros He Hs Ha Hp.
  assert (Hf : forall lit, challengeType s <> Some lit ->
                           JS.strict_eq (challengeType s) lit = false).
  { intros lit Hne. destruct (JS.strict_eq (challengeType s) lit) eqn:Heq;
      [|reflexivity]. apply strict_eq_true in Heq. contradiction. }
  unfold render2FAStep, panel_field, framing, isIdentityVerification,
    isEmailOTP, isPush.
  rewrite (Hf _ He), (Hf _ Hs), (Hf _ Ha), (Hf _ Hp). cbn.
  split; reflexivity.
Qed.

Lemma unknown_challenge_gets_generic_framing_witness :
  title (framing (mkState Step2FA "a@x.com" "hunter2" "" false (Some "s1")
                    false None (Some "TOTP") None))
  = "Verify your identity".
Proof.
  pose proof (unknown_challenge_gets_generic_framing
                (mkState Step2FA "a@x.com" "hunter2" "" false (Some "s1")
                   false None (Some "TOTP") None)) as H.
  destruct H as [H _]; [discriminate..|].
  rewrite H. reflexivity.
Defined.

(** ** The page *)

(** X20.  On every page the input of the shown form, its submit button and
    the back arrow are disabled exactly while a request is in flight, and
    the input shows the cell of its step. *)
Theorem page_controls_follow_loading s :
  (forall b, backArrow (Home s) = Some b -> button_disabled b = isLoading s)
  /\ (forall b, panel_submit (panel (Home s)) = Some b ->
                button_disabled b = isLoading s)
  /\ (forall i, panel_field (panel (Home s)) = Some i ->
                input_disabled i = isLoading s
                /\ input_value i
                   = match step s with
                     | StepEmail => email s
                     | StepPassword => password s
                     | _ => twoFACode s
                     end).
Proof.
  unfold Home, render2FAStep, step_is; cbn.
  destruct (step s); cbn; (split; [|split]); intros x Hx;
    repeat case_match; simplify_eq/=; auto.
Qed.

(** ** After a rejection *)

(** X21.  After a rejected password (a response with [success] false and
    no challenge) the password cell is empty, so submitting the form again
    does nothing; once a password that is not blank has been typed,
    submitting sends it with the session id of the rejected request. *)
Theorem rejected_password_must_be_retyped w k sid pw data v :
  reachable w ->
  outstanding w !! k = Some (PostPassword sid pw) ->
  data_success data = false ->
  JS.truthy_opt (data_challengeType data) = false ->
  all_white v = false ->
  password (ui (fire w (Settle k (Fulfilled data)))) = ""
  /\ fire (fire w (Settle k (Fulfilled data))) SubmitPassword
     = fire w (Settle k (Fulfilled data))
  /\ outstanding
       (fire (fire (fire w (Settle k (Fulfilled data))) (ChangePassword v))
             SubmitPassword)
     = [PostPassword sid v].
Proof.
  intros Hw Hk Hok Hc Hv.
  pose proof (request_from_lookup w k _ Hw Hk) as Hr.
  destruct (outstanding_lookup w k _ Hw Hk) as (Ho & -> & Hs & Hl).
  assert (Ht : JS.truthy (JS.trim v) = true)
    by (rewrite trim_truthy, Hv; reflexivity).
  destruct w as [[st em pw' code sp sid' ld err ct cm] out]; simpl in *.
  subst out ld st. destruct Hr as (-> & -> & Hsid & _).
  open_handlers; cbn. rewrite Hok, Hc.
  unfold step_is, setIsLoading, setPassword, setError, JS.trim in *; cbn.
  repeat (rewrite bool_decide_eq_true_2 by reflexivity; cbn).
  rewrite Ht, Hsid. cbn. repeat split.
Qed.

Lemma rejected_password_must_be_retyped_witness :
  password (ui (fire (run mount Sample.password_sent)
                     (Settle 0 (Fulfilled Sample.rejected)))) = ""
  /\ fire (fire (run mount Sample.password_sent)
                (Settle 0 (Fulfilled Sample.rejected))) SubmitPassword
     = fire (run mount Sample.password_sent)
            (Settle 0 (Fulfilled Sample.rejected))
  /\ outstanding
       (fire (fire (fire (run mount Sample.password_sent)
                         (Settle 0 (Fulfilled Sample.rejected)))
                   (ChangePassword "hunter3"))
             SubmitPassword)
     = [PostPassword (Some "s1") "hunter3"].
Proof.
  apply (rejected_password_must_be_retyped _ 0 (Some "s1") "hunter2").
  - apply reachable_run, reachable_mount.
  - vm_compute. reflexivity.
  - reflexivity.
  - reflexivity.
  - vm_compute. reflexivity.
Defined.

(** X22.  After a rejected code (a response with [success] false and no
    challenge) the typed code is still there: submitting the form again
    sends the same request and puts the component back in the world it was
    in while it waited. *)
Theorem rejected_code_can_be_resent w k sid code data :
  reachable w ->
  outstanding w !! k = Some (Post2FA sid code) ->
  data_success data = false ->
  JS.truthy_opt (data_challengeType data) = false ->
  fire (fire w (Settle k (Fulfilled data))) Submit2FA = w.
Proof.
  intros Hw Hk Hok Hc.
  pose proof (request_from_lookup w k _ Hw Hk) as Hr.
  pose proof (tidy_loading w (reachable_tidy w Hw)) as He.
  destruct (outstanding_lookup w k _ Hw Hk) as (Ho & -> & Hs & Hl).
  specialize (He Hl).
  destruct w as [[st em pw code' sp sid' ld err ct cm] out]; simpl in *.
  subst out ld err st.
  open_handlers; unfold request_from, isPush in *; cbn in *.
  rewrite Hok, Hc. cbn. unfold JS.trim in *.
  destruct Hr as (-> & -> & Hsid & Hp). rewrite Hsid.
  destruct Hp as [Hp | Hp]; rewrite Hp; cbn; rewrite ?andb_false_r;
    reflexivity.
Qed.

Lemma rejected_code_can_be_resent_witness :
  fire (fire (run mount Sample.code_sent)
             (Settle 0 (Fulfilled Sample.rejected))) Submit2FA
  = run mount Sample.code_sent.
Proof.
  apply (rejected_code_can_be_resent _ 0 (Some "s1") "000000").
  - apply reachable_run, reachable_mount.
  - vm_compute. reflexivity.
  - reflexivity.
  - reflexivity.
Defined.
